(** * gist.check: policy checks collected in a reporting scope

    A shallow embedding of [src/gist/check.py] (the context variable
    [check_ctx], the context manager [report], the decorator factory [check]
    and the base class [ReportBase]) together with the example class
    [Evaluation] of [examples/checker.py], and the properties of the
    specification stated over that embedding. *)

From Stdlib Require Import ZArith.
From stdpp Require Import base option list sorting strings gmap.

Local Open Scope Z_scope.
Local Open Scope nat_scope.

(** ** Python values, exceptions and the interpreter state *)

(** A list object is known by its identity: two names bound to one list see
    each other's [append]. *)
Abbreviation loc := nat (only parsing).

Inductive value :=
| VNone
| VBool (b : bool)
| VInt (n : Z)
| VStr (s : string)
| VList (l : loc).

(** The exceptions the module and its example raise; [RuntimeWarning msg checks]
    stands for [RuntimeWarning(msg, checks)], whose second argument is the
    object that was read from the context variable. *)
Inductive exn :=
| ValueError (msg : string)
| RuntimeWarning (msg : string) (checks : value)
| RuntimeError (msg : string)
| TypeError (msg : string)
| AttributeError (name : string).

Global Instance value_eq_dec : EqDecision value.
Proof. solve_decision. Defined.
Global Instance exn_eq_dec : EqDecision exn.
Proof. solve_decision. Defined.

(** [heap] holds the contents of every list object created so far,
    [check_ctx] is the binding of the context variable in the current context
    ([None]: never set, so that [get] yields the default), and [tokens] records
    for every token handed out by [set] whether it has been used. *)
Record state := State {
  heap : list (list value);
  check_ctx : option loc;
  tokens : list bool
}.

Inductive result (A : Type) :=
| Return (a : A)
| Raise (e : exn).
Global Arguments Return {A} a.
Global Arguments Raise {A} e.

(** Computations: a state transformer that returns or raises. *)
Definition M (A : Type) : Type := state → state * result A.

Global Instance M_ret : MRet M := λ A a s, (s, Return a).
Global Instance M_bind : MBind M := λ A B f m s,
  match m s with
  | (s', Return a) => f a s'
  | (s', Raise e) => (s', Raise e)
  end.

Definition raise {A} (e : exn) : M A := λ s, (s, Raise e).

(** Truth value of an object, as [if], [not] and [any] test it. *)
Definition truthy (s : state) (v : value) : bool :=
  match v with
  | VNone => false
  | VBool b => b
  | VInt n => negb (n =? 0)%Z
  | VStr x => negb (String.eqb x "")
  | VList l => match heap s !! l with Some [] => false | _ => true end
  end.

(** [not v] and [any(vs)]: they read the state only to test a list. *)
Definition not_ (v : value) : M bool := λ s, (s, Return (negb (truthy s v))).

Definition any (vs : list value) : M value := λ s,
  (s, Return (VBool (existsb (truthy s) vs))).

(** [list()] and [list.append]. *)
Definition list_new : M loc := λ s,
  (State (heap s ++ [[]]) (check_ctx s) (tokens s), Return (length (heap s))).

Definition list_append (l : loc) (x : value) : M unit := λ s,
  (State (alter (λ xs, xs ++ [x]) l (heap s)) (check_ctx s) (tokens s), Return ()).

(** ** contextvars.ContextVar, for the one variable [check_ctx] *)
Module ContextVar.

(** A token remembers the binding that [set] replaced. *)
Record Token := { tok_id : nat; old_value : option loc }.

Definition get : M value := λ s,
  (s, Return (match check_ctx s with Some l => VList l | None => VNone end)).

Definition set (l : loc) : M Token := λ s,
  (State (heap s) (Some l) (tokens s ++ [false]),
   Return {| tok_id := length (tokens s); old_value := check_ctx s |}).

(** [reset] restores the remembered binding; a token serves once. *)
Definition reset (tok : Token) : M unit := λ s,
  match tokens s !! tok_id tok with
  | Some false =>
      (State (heap s) (old_value tok) (<[tok_id tok := true]> (tokens s)), Return ())
  | _ => (s, Raise (RuntimeError "Token has already been used once"))
  end.

End ContextVar.

(** ** class report *)
Module report.

Record t := { _token : ContextVar.Token }.

Definition __init__ : M t :=
  l ← list_new;
  tok ← ContextVar.set l;
  mret {| _token := tok |}.

Definition __enter__ (self : t) : M value := ContextVar.get.

(** [exc] is the tuple of positional arguments; each of them is [None] or
    an object describing the exception in flight. *)
Definition __exit__ (self : t) (exc : list (option exn)) : M value :=
  checks ← ContextVar.get;
  _ ← ContextVar.reset (_token self);
  match exc with
  | _ :: _ =>
      raise (RuntimeWarning "Checks failed while applying rules in validation." checks)
  | [] => mret (VBool false)
  end.

End report.

(** ** def check *)

Definition checker (policy : value) (func : M value) : M value :=
  checks ← ContextVar.get;
  _ ← match checks with
      | VList l => list_append l policy
      | _ => mret ()
      end;
  func.

Definition decorator (policy : value) (func : M value) : M value :=
  checker policy func.

Definition check (policy : value) : M (M value → M value) :=
  unset ← not_ policy;
  if unset : bool
  then raise (ValueError "Check policy not set!")
  else mret (decorator policy).

(** ** Objects, [dir] and [getattr] *)

(** An attribute is a callable taking no argument beyond the receiver it is
    bound to, or plain data. *)
Inductive attr :=
| Function (func : M value)
| Data (v : value).

(** An instance: its own dictionary and the dictionaries of the classes of its
    method resolution order, the most derived class first. *)
Record object := {
  __dict__ : gmap string attr;
  __mro__ : list (gmap string attr)
}.

(** [dir(self)]: the attribute names of the instance and of every class it
    inherits from, each once, sorted. *)
Definition dir (self : object) : list string :=
  merge_sort String.le
    (elements (dom (__dict__ self) ∪ ⋃ (dom <$> __mro__ self))).

Fixpoint lookup_mro (name : string) (ds : list (gmap string attr)) : option attr :=
  match ds with
  | [] => None
  | d :: ds' =>
      match d !! name with
      | Some a => Some a
      | None => lookup_mro name ds'
      end
  end.

(** [getattr(self, name)]: the instance first, then the classes in order. *)
Definition getattr (self : object) (name : string) : M attr :=
  match lookup_mro name (__dict__ self :: __mro__ self) with
  | Some a => mret a
  | None => raise (AttributeError name)
  end.

(** [a()] *)
Definition call (a : attr) : M value :=
  match a with
  | Function func => func
  | Data _ => raise (TypeError "object is not callable")
  end.

Definition startswith (name pre : string) : bool := String.prefix pre name.

(** ** class ReportBase *)
Module ReportBase.

(** The names [apply_rules] goes through, in the order it does. *)
Definition check_methods (self : object) : list string :=
  filter (λ name, startswith name "_check_") (dir self).

Definition apply_rules (self : object) : M value :=
  results ← mapM (λ m, a ← getattr self m; call a) (check_methods self);
  any results.

Definition validate (self : object) : M value :=
  _ ← apply_rules self;
  mret VNone.

(** The class dictionary as seen from an instance [self]. *)
Definition cls (self : object) : gmap string attr :=
  list_to_map [
    ("apply_rules", Function (apply_rules self));
    ("validate", Function (validate self));
    ("__doc__", Data (VStr "Base class for validation enabled policies."))
  ].

End ReportBase.

(** ** The [with] statement over a [report] *)

(** What [__exit__] receives: the exception's type, the exception and its
    traceback, or three times [None]. *)
Definition exc_info (e : exn) : list (option exn) := [Some e; Some e; Some e].
Definition no_exc : list (option exn) := [None; None; None].

Definition try_ {A} (m : M A) : M (result A) := λ s,
  let '(s', r) := m s in (s', Return r).

(** [with report() as value: suite]. An exception of the suite is re-raised
    unless [__exit__] returns a true value; an exception of [__exit__]
    replaces it. *)
Definition with_report {A} (suite : value → M A) : M unit :=
  manager ← report.__init__;
  value ← report.__enter__ manager;
  r ← try_ (suite value);
  match r with
  | Return _ =>
      _ ← report.__exit__ manager no_exc;
      mret ()
  | Raise e =>
      suppress ← report.__exit__ manager (exc_info e);
      unset ← not_ suppress;
      if unset : bool then raise e else mret ()
  end.

(** ** contextlib.ContextDecorator, the base class of [report] *)
Module ContextDecorator.




End ContextDecorator.

(** [self.name = a]: an attribute set on the instance. *)
Definition setattr (self : object) (name : string) (a : attr) : object :=
  {| __dict__ := <[name := a]> (__dict__ self); __mro__ := __mro__ self |}.

(** ** examples/checker.py *)
Module Evaluation.

Definition _check_number1 : M value := mret (VBool false).
Definition _check_number2 : M value := mret (VBool true).
Definition _check_number3 : M value := raise (ValueError "No value").
Definition _check_number4 : M value := mret (VBool true).

(** The class body: every decorator is built when the class is. *)
Definition class_body : M (gmap string attr) :=
  policy_1 ← check (VStr "policy_1");
  policy_2 ← check (VStr "policy_2");
  policy_3 ← check (VStr "policy_3");
  policy_4 ← check (VStr "policy_4");
  mret (list_to_map [
    ("__doc__", Data (VStr "Evaluating certain policies."));
    ("_check_number1", Function (policy_1 _check_number1));
    ("_check_number2", Function (policy_2 _check_number2));
    ("_check_number3", Function (policy_3 _check_number3));
    ("_check_number4", Function (policy_4 _check_number4))
  ]).

(** [Evaluation()]: no instance attribute; the methods of [ReportBase] are
    bound to the instance, whose check methods are those of [klass]. *)
Definition new (klass : gmap string attr) : object :=
  {| __dict__ := ∅;
     __mro__ := [klass; ReportBase.cls {| __dict__ := ∅; __mro__ := [klass] |}] |}.

Definition main : M unit :=
  klass ← class_body;
  let evaluatee := new klass in
  with_report (λ _, ReportBase.validate evaluatee).

(** The dictionary the class body builds, and an instance of the class. *)
Definition klass : gmap string attr :=
  list_to_map [
    ("__doc__", Data (VStr "Evaluating certain policies."));
    ("_check_number1", Function (checker (VStr "policy_1") _check_number1));
    ("_check_number2", Function (checker (VStr "policy_2") _check_number2));
    ("_check_number3", Function (checker (VStr "policy_3") _check_number3));
    ("_check_number4", Function (checker (VStr "policy_4") _check_number4))
  ].

Definition evaluatee : object := new klass.

(** Its check methods as policy name and undecorated body, by method name. *)
Definition checks : list (value * M value) :=
  [ (VStr "policy_1", _check_number1); (VStr "policy_2", _check_number2);
    (VStr "policy_3", _check_number3); (VStr "policy_4", _check_number4) ].

(** An instance of a subclass that overrides the one failing check:
    [class Lenient(Evaluation)] with [_check_number3] returning [False]
    under the same policy. *)
Definition lenient : object :=
  let override : gmap string attr :=
    {[ "_check_number3" :=
         Function (checker (VStr "policy_3") (mret (VBool false))) ]} in
  {| __dict__ := ∅;
     __mro__ := [override; klass;
                 ReportBase.cls {| __dict__ := ∅; __mro__ := [override; klass] |}] |}.

End Evaluation.

Definition empty_state : state := State [] None [].

(** ** Vocabulary of the statements *)

(** [getattr(self, m)()], the element of the comprehension of [apply_rules]. *)
Definition invoke (self : object) (m : string) : M value :=
  a ← getattr self m; call a.

(** The state in which a computation leaves the interpreter, and the states
    and outcomes of invocations made one after the other by a caller who
    handles whatever each of them raises. *)
Definition after_calls {A} (ms : list (M A)) (s : state) : state :=
  foldl (λ s' m, (m s').1) s ms.

Fixpoint outcomes {A} (ms : list (M A)) (s : state) : list (result A) :=
  match ms with
  | [] => []
  | m :: ms' => (m s).2 :: outcomes ms' (m s).1
  end.

(** A body that writes nothing: no list, no context variable, no token. *)
Definition stateless {A} (m : M A) : Prop := ∀ s, (m s).1 = s.

(** What [check_ctx.get()] yields in a state: the ambient collection, or
    [None] outside every scope. *)
Definition ambient (s : state) : value :=
  match check_ctx s with Some l => VList l | None => VNone end.

(** The state once [policy] has been appended to the list [l]. *)
Definition tagged (l : loc) (policy : value) (s : state) : state :=
  State (alter (λ xs, xs ++ [policy]) l (heap s)) (check_ctx s) (tokens s).

(** A body that neither tags nor rebinds: it leaves the context variable and
    the ambient collection as it found them (it may well open and close a
    scope of its own). *)
Definition quiet {A} (m : M A) : Prop :=
  ∀ s, check_ctx (m s).1 = check_ctx s ∧
       ∀ l xs, check_ctx s = Some l → heap s !! l = Some xs →
               heap (m s).1 !! l = Some xs.

(** The elements of the list a value refers to. *)
Definition contents (s : state) (v : value) : option (list value) :=
  match v with
  | VList l => heap s !! l
  | _ => None
  end.

(** Check methods given by policy name and undecorated body, as invocations. *)
Definition calls (checks : list (value * M value)) : list (M value) :=
  (λ pf, checker pf.1 pf.2) <$> checks.

(** The methods [names] of [self] are bodies decorated with policy names, as
    listed in [checks]. *)
Definition tagged_as (self : object) (names : list string)
    (checks : list (value * M value)) : Prop :=
  Forall2 (λ name pf, ∀ s, invoke self name s = checker pf.1 pf.2 s) names checks.

(** A computation that respects the scope it runs in: it leaves the context
    variable bound as it found it, writes to no list that existed before
    other than the ambient one, and uses no token that existed before. *)
Record well_scoped {A} (m : M A) : Prop := {
  ws_ctx : ∀ s, check_ctx (m s).1 = check_ctx s;
  ws_heap : ∀ s l xs,
    heap s !! l = Some xs → check_ctx s ≠ Some l → heap (m s).1 !! l = Some xs;
  ws_tokens : ∀ s t b, tokens s !! t = Some b → tokens (m s).1 !! t = Some b
}.

(** ** Equations of the primitive steps *)

Lemma bind_Return {A B} (m : M A) (f : A → M B) s s' a :
  m s = (s', Return a) → (m ≫= f) s = f a s'.
Proof. intros Hm. unfold mbind, M_bind. by rewrite Hm. Qed.

Lemma bind_Raise {A B} (m : M A) (f : A → M B) s s' e :
  m s = (s', Raise e) → (m ≫= f) s = (s', Raise e).
Proof. intros Hm. unfold mbind, M_bind. by rewrite Hm. Qed.

Lemma checker_active policy func s l :
  check_ctx s = Some l → checker policy func s = func (tagged l policy s).
Proof.
  intros Hl. unfold checker, mbind, M_bind, ContextVar.get. cbn. by rewrite Hl.
Qed.

Lemma checker_inactive policy func s :
  check_ctx s = None → checker policy func s = func s.
Proof.
  intros Hl. unfold checker, mbind, M_bind, ContextVar.get. cbn. by rewrite Hl.
Qed.

Lemma init_eq s :
  report.__init__ s =
    (State (heap s ++ [[]]) (Some (length (heap s))) (tokens s ++ [false]),
     Return {| report._token :=
       {| ContextVar.tok_id := length (tokens s);
          ContextVar.old_value := check_ctx s |} |}).
Proof. reflexivity. Qed.

Lemma reset_unused tok s :
  tokens s !! ContextVar.tok_id tok = Some false →
  ContextVar.reset tok s =
    (State (heap s) (ContextVar.old_value tok)
       (<[ContextVar.tok_id tok := true]> (tokens s)), Return ()).
Proof. intros Ht. unfold ContextVar.reset. by rewrite Ht. Qed.

Lemma exit_unused self exc s :
  tokens s !! ContextVar.tok_id (report._token self) = Some false →
  report.__exit__ self exc s =
    (State (heap s) (ContextVar.old_value (report._token self))
       (<[ContextVar.tok_id (report._token self) := true]> (tokens s)),
     match exc with
     | [] => Return (VBool false)
     | _ :: _ =>
         Raise (RuntimeWarning "Checks failed while applying rules in validation."
                  (ambient s))
     end).
Proof.
  intros Ht. unfold report.__exit__, mbind, M_bind, ContextVar.get. cbn.
  rewrite (reset_unused _ _ Ht). by destruct exc.
Qed.

(** ** Computations that respect their scope *)

Section well_scoped.

Lemma well_scoped_ret {A} (a : A) : well_scoped (mret a : M A).
Proof. by split. Qed.

Lemma well_scoped_raise {A} e : well_scoped (raise e : M A).
Proof. by split. Qed.

Lemma stateless_well_scoped {A} (m : M A) : stateless m → well_scoped m.
Proof. intros Hm. split; intros s; by rewrite Hm. Qed.

Lemma well_scoped_bind {A B} (m : M A) (f : A → M B) :
  well_scoped m → (∀ a, well_scoped (f a)) → well_scoped (m ≫= f).
Proof.
  intros [Hc Hh Ht] Hf. split; intros s; unfold mbind, M_bind;
    specialize (Hc s); specialize (Hh s); specialize (Ht s);
    destruct (m s) as [s' [a|e]]; simpl in *; auto.
  - rewrite <- Hc. apply Hf.
  - intros l xs Hl Hne. apply Hf; [by apply Hh | by rewrite Hc].
  - intros t b Hb. apply Hf. by apply Ht.
Qed.

Lemma well_scoped_try {A} (m : M A) : well_scoped m → well_scoped (try_ m).
Proof.
  intros [Hc Hh Ht]. split; intros s; unfold try_;
    specialize (Hc s); specialize (Hh s); specialize (Ht s);
    destruct (m s) as [s' r]; simpl in *; auto.
Qed.

Lemma well_scoped_get : well_scoped ContextVar.get.
Proof. by split. Qed.

Lemma well_scoped_any vs : well_scoped (any vs).
Proof. by split. Qed.

Lemma well_scoped_not v : well_scoped (not_ v).
Proof. by split. Qed.

Lemma well_scoped_checker policy func :
  well_scoped func → well_scoped (checker policy func).
Proof.
  intros [Hc Hh Ht]. split; intros s.
  - destruct (check_ctx s) as [l|] eqn:Hl.
    + by rewrite (checker_active _ _ _ _ Hl), Hc.
    + by rewrite (checker_inactive _ _ _ Hl), Hc.
  - intros l' xs Hl' Hne. destruct (check_ctx s) as [l|] eqn:Hl.
    + rewrite (checker_active _ _ _ _ Hl). apply Hh; simpl.
      * rewrite list_lookup_alter_ne; [done | congruence].
      * congruence.
    + rewrite (checker_inactive _ _ _ Hl). apply Hh; [done | congruence].
  - intros t b Hb. destruct (check_ctx s) as [l|] eqn:Hl.
    + rewrite (checker_active _ _ _ _ Hl). by apply Ht.
    + rewrite (checker_inactive _ _ _ Hl). by apply Ht.
Qed.

Lemma well_scoped_mapM {A B} (f : A → M B) (l : list A) :
  Forall (λ x, well_scoped (f x)) l → well_scoped (mapM f l).
Proof.
  induction 1 as [|x l Hx _ IH]; simpl.
  - apply well_scoped_ret.
  - apply well_scoped_bind; [done | intros y].
    apply well_scoped_bind; [done | intros k]. apply well_scoped_ret.
Qed.

Lemma well_scoped_apply_rules self :
  Forall (λ m, well_scoped (invoke self m)) (ReportBase.check_methods self) →
  well_scoped (ReportBase.apply_rules self).
Proof.
  intros Hall. unfold ReportBase.apply_rules.
  apply well_scoped_bind; [by apply well_scoped_mapM | apply well_scoped_any].
Qed.

Lemma well_scoped_validate self :
  Forall (λ m, well_scoped (invoke self m)) (ReportBase.check_methods self) →
  well_scoped (ReportBase.validate self).
Proof.
  intros Hall. unfold ReportBase.validate.
  apply well_scoped_bind; [by apply well_scoped_apply_rules | intros _].
  apply well_scoped_ret.
Qed.

End well_scoped.

(** ** The scope as a whole *)

Section scope.
Context {A : Type} (suite : value → M A).

(** Whatever the outcome of the suite, [__exit__] is handed three
    arguments, restores the binding and raises. *)
Lemma with_report_run s s2 (r : result A) :
  suite (VList (length (heap s))) (report.__init__ s).1 = (s2, r) →
  tokens s2 !! length (tokens s) = Some false →
  with_report suite s =
    (State (heap s2) (check_ctx s) (<[length (tokens s) := true]> (tokens s2)),
     Raise (RuntimeWarning "Checks failed while applying rules in validation."
              (ambient s2))).
Proof.
  intros Hsuite Htok. unfold with_report.
  erewrite bind_Return; [|apply init_eq].
  erewrite bind_Return; [|reflexivity].
  rewrite init_eq in Hsuite. simpl in Hsuite.
  erewrite bind_Return; [|unfold try_; cbn; by rewrite Hsuite].
  destruct r as [a|e].
  - erewrite bind_Raise; [done|]. by rewrite exit_unused.
  - erewrite bind_Raise; [done|]. by rewrite exit_unused.
Qed.

Hypothesis suite_scoped : ∀ v, well_scoped (suite v).

Lemma suite_keeps_token s :
  tokens (suite (VList (length (heap s))) (report.__init__ s).1).1
    !! length (tokens s) = Some false.
Proof.
  apply suite_scoped. rewrite init_eq. simpl.
  by rewrite lookup_app_r, Nat.sub_diag.
Qed.

Lemma with_report_scoped_run s :
  ∃ s2 r,
    suite (VList (length (heap s))) (report.__init__ s).1 = (s2, r) ∧
    check_ctx s2 = Some (length (heap s)) ∧
    (∀ l xs, heap s !! l = Some xs → heap s2 !! l = Some xs) ∧
    (∀ t b, tokens s !! t = Some b → tokens s2 !! t = Some b) ∧
    with_report suite s =
      (State (heap s2) (check_ctx s) (<[length (tokens s) := true]> (tokens s2)),
       Raise (RuntimeWarning "Checks failed while applying rules in validation."
                (VList (length (heap s))))).
Proof.
  pose proof (suite_keeps_token s) as Htok.
  destruct (suite_scoped (VList (length (heap s)))) as [Hc Hh Ht].
  specialize (Hc (report.__init__ s).1).
  specialize (Hh (report.__init__ s).1).
  specialize (Ht (report.__init__ s).1).
  destruct (suite _ _) as [s2 r] eqn:Hrun. simpl in *.
  exists s2, r. split_and!; [done|done|..].
  - intros l xs Hl. apply Hh.
    + by apply lookup_app_l_Some.
    + apply lookup_lt_Some in Hl. intros [=]. lia.
  - intros t b Hb. apply Ht. by apply lookup_app_l_Some.
  - rewrite (with_report_run s s2 r Hrun Htok). unfold ambient. by rewrite Hc.
Qed.

Lemma well_scoped_with_report : well_scoped (with_report suite).
Proof.
  split; intros s; destruct (with_report_scoped_run s)
    as (s2 & r & _ & _ & Hh & Ht & ->); simpl; [done|auto|].
  intros t b Hb. rewrite list_lookup_insert_ne; [by apply Ht|].
  apply lookup_lt_Some in Hb. lia.
Qed.

End scope.

(** ** Tagged invocations in sequence *)

Lemma stateless_quiet {A} (m : M A) : stateless m → quiet m.
Proof. intros Hm s. split; intros; by rewrite Hm. Qed.

Lemma with_report_quiet {A} (suite : value → M A) :
  (∀ v, well_scoped (suite v)) → quiet (with_report suite).
Proof.
  intros Hs s. destruct (with_report_scoped_run suite Hs s)
    as (s2 & r & _ & _ & Hh & _ & ->). simpl. split; [done|]. auto.
Qed.

Lemma checker_quiet_step policy func s l xs :
  quiet func → check_ctx s = Some l → heap s !! l = Some xs →
  check_ctx (checker policy func s).1 = Some l ∧
  heap (checker policy func s).1 !! l = Some (xs ++ [policy]).
Proof.
  intros Hq Hl Hxs. rewrite (checker_active _ _ _ _ Hl).
  destruct (Hq (tagged l policy s)) as [Hc Hh]. split.
  - by rewrite Hc.
  - apply Hh; [done|]. unfold tagged. cbn [heap].
    by rewrite list_lookup_alter_eq, Hxs.
Qed.

Lemma after_calls_tagged checks s l xs :
  Forall (λ pf, quiet pf.2) checks →
  check_ctx s = Some l → heap s !! l = Some xs →
  check_ctx (after_calls (calls checks) s) = Some l ∧
  heap (after_calls (calls checks) s) !! l = Some (xs ++ checks.*1).
Proof.
  intros Hq. revert s xs. induction Hq as [|[p f] checks Hf _ IH]; intros s xs Hl Hxs.
  - simpl. by rewrite app_nil_r.
  - destruct (checker_quiet_step p f s l xs Hf Hl Hxs) as [Hl' Hxs'].
    destruct (IH _ _ Hl' Hxs') as [? Hfin]. split; [done|].
    change (after_calls (calls ((p, f) :: checks)) s)
      with (after_calls (calls checks) (checker p f s).1).
    rewrite Hfin. by rewrite <- app_assoc.
Qed.

Lemma after_calls_ext {A} (ms ms' : list (M A)) s :
  Forall2 (λ m m', ∀ s, m s = m' s) ms ms' →
  after_calls ms s = after_calls ms' s.
Proof.
  intros Hall. revert s. induction Hall as [|m m' ms ms' Hm _ IH]; intros s; [done|].
  simpl. rewrite Hm. apply IH.
Qed.

Lemma after_calls_tagged_as self names checks s :
  tagged_as self names checks →
  after_calls (invoke self <$> names) s = after_calls (calls checks) s.
Proof.
  intros Hall. apply after_calls_ext. unfold calls.
  apply Forall2_fmap. exact Hall.
Qed.

(** ** The comprehension of [apply_rules] *)

Section mapM.
Context {A B : Type} (f : A → M B).

Lemma mapM_returns l s vs :
  outcomes (f <$> l) s = Return <$> vs →
  mapM f l s = (after_calls (f <$> l) s, Return vs).
Proof.
  revert s vs. induction l as [|x l IH]; intros s vs Hout.
  - by destruct vs.
  - destruct vs as [|v vs]; [done|]. simpl in Hout. injection Hout as Hx Hl.
    cbn [mapM]. destruct (f x s) as [s1 r] eqn:Hfx. simpl in *. subst r.
    erewrite bind_Return; [|done].
    erewrite bind_Return; [|by apply IH]. by rewrite Hfx.
Qed.

Lemma mapM_raises pre x post s vs s2 e :
  outcomes (f <$> pre) s = Return <$> vs →
  f x (after_calls (f <$> pre) s) = (s2, Raise e) →
  mapM f (pre ++ x :: post) s = (s2, Raise e).
Proof.
  revert s vs. induction pre as [|y pre IH]; intros s vs Hout Hx.
  - cbn [mapM app]. by erewrite bind_Raise.
  - destruct vs as [|v vs]; [done|]. simpl in Hout. injection Hout as Hy Hl.
    cbn [mapM app]. destruct (f y s) as [s1 r] eqn:Hfy. simpl in *. subst r.
    erewrite bind_Return; [|done].
    erewrite bind_Raise; [done|]. rewrite Hfy in Hx. by eapply IH.
Qed.

(** The comprehension stops after some prefix of the list. *)
Lemma mapM_prefix l s :
  ∃ n, (mapM f l s).1 = after_calls (f <$> take n l) s.
Proof.
  revert s. induction l as [|x l IH]; intros s.
  - by exists 0.
  - cbn [mapM]. unfold mbind at 1, M_bind at 1.
    destruct (f x s) as [s1 [y|e]] eqn:Hfx.
    + destruct (IH s1) as [n Hn]. exists (S n).
      change (after_calls (f <$> take (S n) (x :: l)) s)
        with (after_calls (f <$> take n l) (f x s).1).
      rewrite Hfx. cbn [fst]. rewrite <- Hn. unfold mbind, M_bind.
      by destruct (mapM f l s1) as [s2 [k|e]].
    + exists 1.
      change (after_calls (f <$> take 1 (x :: l)) s) with ((f x s).1).
      by rewrite Hfx.
Qed.

End mapM.

(** ** Discovery: [dir] and the check-method names *)

Section discovery.
Implicit Types (self : object) (name : string).




Lemma elem_of_dir self name :
  name ∈ dir self ↔ ∃ d, d ∈ __dict__ self :: __mro__ self ∧ is_Some (d !! name).
Proof.
  unfold dir. rewrite merge_sort_Permutation, elem_of_elements, elem_of_union,
    elem_of_dom, elem_of_union_list. split.
  - intros [Hd | (X & HX & Hname)].
    + exists (__dict__ self). split; [left|done].
    + apply list_elem_of_fmap in HX as (d & -> & Hd). exists d.
      split; [by right | by apply elem_of_dom].
  - intros (d & Hd & Hname). apply elem_of_cons in Hd as [-> | Hd]; [by left|].
    right. exists (dom d). split; [by apply list_elem_of_fmap_2 | by apply elem_of_dom].
Qed.


Lemma check_methods_NoDup self : NoDup (ReportBase.check_methods self).
Proof.
  apply NoDup_filter. unfold dir. rewrite merge_sort_Permutation.
  apply NoDup_elements.
Qed.

Lemma elem_of_check_methods self name :
  name ∈ ReportBase.check_methods self ↔
  startswith name "_check_" = true ∧
  ∃ d, d ∈ __dict__ self :: __mro__ self ∧ is_Some (d !! name).
Proof.
  unfold ReportBase.check_methods.
  by rewrite list_elem_of_filter, elem_of_dir, Is_true_true.
Qed.

Lemma lookup_mro_is_Some name (ds : list (gmap string attr)) :
  is_Some (lookup_mro name ds) ↔ ∃ d, d ∈ ds ∧ is_Some (d !! name).
Proof.
  induction ds as [|d ds IH]; simpl.
  - split; [by intros [? ?] | by intros (? & ?%elem_of_nil & _)].
  - destruct (d !! name) as [a|] eqn:Hd.
    + split; [|done]. intros _. exists d. split; [left | by rewrite Hd].
    + rewrite IH. split.
      * intros (d' & ? & ?). exists d'. split; [by right | done].
      * intros (d' & [-> | ?]%elem_of_cons & Hsome).
        -- rewrite Hd in Hsome. by destruct Hsome.
        -- by exists d'.
Qed.

(** Every discovered name resolves: [getattr] does not fail on it. *)
Lemma getattr_check_method self name :
  name ∈ ReportBase.check_methods self →
  ∃ a, ∀ s, getattr self name s = (s, Return a).
Proof.
  intros [_ Hd]%elem_of_check_methods.
  apply lookup_mro_is_Some in Hd as [a Ha]. exists a. intros s.
  unfold getattr. by rewrite Ha.
Qed.

End discovery.

(** ** The example class *)

Lemma class_body_eq s : Evaluation.class_body s = (s, Return Evaluation.klass).
Proof. reflexivity. Qed.

Lemma well_scoped_ext {A} (m m' : M A) :
  (∀ s, m s = m' s) → well_scoped m → well_scoped m'.
Proof. intros Heq [Hc Hh Ht]. split; intros s; rewrite <- Heq; auto. Qed.

Lemma invoke_function self name func :
  lookup_mro name (__dict__ self :: __mro__ self) = Some (Function func) →
  ∀ s, invoke self name s = func s.
Proof.
  intros Ha s. unfold invoke, getattr. rewrite Ha.
  unfold mbind, M_bind, mret, M_ret. simpl. by destruct (func s).
Qed.

(** The bodies of the example write nothing. *)
Ltac example_quiet :=
  unfold Evaluation.checks;
  repeat (apply Forall_cons_2; [apply stateless_quiet; by intros ?|]);
  apply Forall_nil_2.

Lemma evaluatee_check_methods :
  ReportBase.check_methods Evaluation.evaluatee =
    ["_check_number1"; "_check_number2"; "_check_number3"; "_check_number4"].
Proof. vm_compute. reflexivity. Qed.

Lemma evaluatee_scoped : well_scoped (ReportBase.validate Evaluation.evaluatee).
Proof.
  apply well_scoped_validate. rewrite evaluatee_check_methods.
  repeat constructor;
    (eapply well_scoped_ext;
     [ intros s; symmetry; apply invoke_function; reflexivity
     | apply well_scoped_checker, stateless_well_scoped; by intros s ]).
Qed.

(** * The claims of the specification *)

(** C1. A scope whose body completes without error should exit normally.
    On the code it does not: the [with] statement calls [__exit__] with three
    arguments, all [None], the tuple [exc] is therefore never empty, and
    [if exc] raises the aggregate failure.  Here, for [with report(): pass]
    opened outside every scope: the statement raises [RuntimeWarning] over
    the empty collection, although [__exit__] called with no argument at the
    same point does return [False]. *)
Theorem clean_scope_exit_raises :
  with_report (λ _, mret VNone) empty_state =
    (State [[]] None [true],
     Raise (RuntimeWarning "Checks failed while applying rules in validation."
              (VList 0)))
  ∧ ∃ self s1,
      report.__init__ empty_state = (s1, Return self) ∧
      report.__exit__ self [] s1 = (State [[]] None [true], Return (VBool false)) ∧
      report.__exit__ self no_exc s1 =
        (State [[]] None [true],
         Raise (RuntimeWarning "Checks failed while applying rules in validation."
                  (VList 0))).
Proof. split; [reflexivity|]. by eexists _, _. Qed.

(** C2. When the body of a scope raises, the [with] statement raises one
    [RuntimeWarning] in place of the body's error, and its payload is the
    collection of this scope, the object bound at entry, holding what was
    recorded until the body stopped.  For the example of
    [examples/checker.py] the payload holds policy_1, policy_2, policy_3. *)
Theorem failed_scope_raises_aggregate :
  (∀ (A : Type) (suite : value → M A) (s0 s1 s2 : state) (self : report.t)
     (c : value) (e : exn),
     (∀ v, well_scoped (suite v)) →
     report.__init__ s0 = (s1, Return self) →
     report.__enter__ self s1 = (s1, Return c) →
     suite c s1 = (s2, Raise e) →
     ∃ s3,
       with_report suite s0 =
         (s3, Raise (RuntimeWarning
                       "Checks failed while applying rules in validation." c)) ∧
       contents s3 c = contents s2 c)
  ∧ Evaluation.main empty_state =
      (State [[VStr "policy_1"; VStr "policy_2"; VStr "policy_3"]] None [true],
       Raise (RuntimeWarning
                "Checks failed while applying rules in validation." (VList 0))).
Proof.
  split.
  - intros A suite s0 s1 s2 self c e Hs Hinit Henter Hrun.
    rewrite init_eq in Hinit. injection Hinit as <- <-.
    injection Henter as <-.
    destruct (with_report_scoped_run suite Hs s0)
      as (s2' & r & Hrun' & Hc & Hh & _ & ->).
    rewrite init_eq in Hrun'. simpl in Hrun', Hrun. rewrite Hrun in Hrun'.
    injection Hrun' as <- <-. by eexists.
  - vm_compute. reflexivity.
Qed.

Lemma failed_scope_raises_aggregate_witness :
  ∃ s3,
    with_report (λ _, ReportBase.validate Evaluation.evaluatee) empty_state =
      (s3, Raise (RuntimeWarning
                    "Checks failed while applying rules in validation." (VList 0))) ∧
    contents s3 (VList 0) =
      Some [VStr "policy_1"; VStr "policy_2"; VStr "policy_3"].
Proof.
  destruct (proj1 failed_scope_raises_aggregate value
              (λ _, ReportBase.validate Evaluation.evaluatee)
              empty_state (State [[]] (Some 0) [false])
              (State [[VStr "policy_1"; VStr "policy_2"; VStr "policy_3"]]
                 (Some 0) [false])
              {| report._token :=
                   {| ContextVar.tok_id := 0; ContextVar.old_value := None |} |}
              (VList 0) (ValueError "No value"))
    as (s3 & Hraise & Hpayload).
  - intros _. apply evaluatee_scoped.
  - reflexivity.
  - reflexivity.
  - vm_compute. reflexivity.
  - exists s3. split; [exact Hraise|]. rewrite Hpayload. reflexivity.
Defined.

(** C6. [check] accepts every non-empty policy name and returns the
    decorator for it; on the empty string, on [None] and on any other false
    value it raises [ValueError] at once.  In both cases the state is left
    as it was: nothing has been wrapped or invoked. *)
Theorem check_validates_policy (policy : string) (s : state) :
  (policy ≠ "" →
   check (VStr policy) s = (s, Return (decorator (VStr policy))) ∧
   ∀ func, decorator (VStr policy) func = checker (VStr policy) func)
  ∧ check (VStr "") s = (s, Raise (ValueError "Check policy not set!"))
  ∧ check VNone s = (s, Raise (ValueError "Check policy not set!"))
  ∧ ∀ v, truthy s v = false →
         check v s = (s, Raise (ValueError "Check policy not set!")).
Proof.
  split_and!; try reflexivity.
  - intros Hne. split; [|done]. unfold check, mbind, M_bind, not_. cbn.
    by apply String.eqb_neq in Hne as ->.
  - intros v Hv. unfold check, mbind, M_bind, not_. by rewrite Hv.
Qed.

Lemma check_validates_policy_witness :
  "policy_1" ≠ "" ∧
  check (VStr "policy_1") empty_state =
    (empty_state, Return (decorator (VStr "policy_1"))).
Proof.
  assert ("policy_1" ≠ "") as Hne by discriminate.
  split; [exact Hne|].
  exact (proj1 (proj1 (check_validates_policy "policy_1" empty_state) Hne)).
Defined.

(** C7. Outside every scope a decorated method behaves as the method it
    wraps: same result or same exception, same final state, and so no
    append to any list; the missing scope raises nothing. *)
Theorem checker_outside_scope (policy : value) (func : M value) (s : state) :
  check_ctx s = None →
  checker policy func s = func s.
Proof. apply checker_inactive. Qed.

Lemma checker_outside_scope_witness :
  check_ctx empty_state = None ∧
  checker (VStr "policy_3") Evaluation._check_number3 empty_state =
    (empty_state, Raise (ValueError "No value")).
Proof.
  split; [reflexivity|].
  rewrite (checker_outside_scope (VStr "policy_3") Evaluation._check_number3
             empty_state eq_refl).
  reflexivity.
Defined.

(** C10. Constructing a [report] already installs a new empty list in the
    context variable; [__enter__] changes nothing and returns whatever is
    installed.  A decorated method invoked between construction and entry is
    therefore recorded in the list that [__enter__] then returns, and the
    binding that was there before construction comes back only with
    [__exit__]. *)
Theorem init_installs_collection (s0 : state) (policy : value) (func : M value) :
  stateless func →
  ∃ self s1 l,
    report.__init__ s0 = (s1, Return self) ∧
    heap s0 !! l = None ∧ heap s1 !! l = Some [] ∧ check_ctx s1 = Some l ∧
    (∀ s, report.__enter__ self s = (s, Return (ambient s))) ∧
    let s2 := (checker policy func s1).1 in
    report.__enter__ self s2 = (s2, Return (VList l)) ∧
    heap s2 !! l = Some [policy] ∧
    ∀ exc, check_ctx (report.__exit__ self exc s2).1 = check_ctx s0.
Proof.
  intros Hfunc. eexists _, _, (length (heap s0)). split; [apply init_eq|].
  assert ((checker policy func
             (State (heap s0 ++ [[]]) (Some (length (heap s0)))
                (tokens s0 ++ [false]))).1
          = tagged (length (heap s0)) policy
              (State (heap s0 ++ [[]]) (Some (length (heap s0)))
                 (tokens s0 ++ [false]))) as Hs2.
  { by erewrite checker_active, Hfunc. }
  split_and!.
  - by apply lookup_ge_None_2.
  - cbn [heap]. by rewrite lookup_app_r, Nat.sub_diag.
  - done.
  - done.
  - cbv zeta. rewrite Hs2. split_and!.
    + done.
    + unfold tagged. cbn [heap]. rewrite list_lookup_alter_eq.
      by rewrite lookup_app_r, Nat.sub_diag.
    + intros exc. rewrite exit_unused; [done|]. simpl.
      by rewrite lookup_app_r, Nat.sub_diag.
Qed.

Lemma init_installs_collection_witness :
  ∃ self s1 l,
    report.__init__ empty_state = (s1, Return self) ∧
    heap empty_state !! l = None ∧ heap s1 !! l = Some [] ∧
    check_ctx s1 = Some l ∧
    (∀ s, report.__enter__ self s = (s, Return (ambient s))) ∧
    let s2 := (checker (VStr "policy_1") Evaluation._check_number1 s1).1 in
    report.__enter__ self s2 = (s2, Return (VList l)) ∧
    heap s2 !! l = Some [VStr "policy_1"] ∧
    ∀ exc, check_ctx (report.__exit__ self exc s2).1 = check_ctx empty_state.
Proof.
  apply (init_installs_collection empty_state (VStr "policy_1")
           Evaluation._check_number1).
  intros s. reflexivity.
Defined.

(** C3. Inside a scope, after each invocation of a decorated method, the
    collection of the scope holds the policy names of the methods invoked so
    far, in the order of invocation, whether their bodies returned or raised;
    and each body runs in a state in which its own name is already there.
    The bodies are any that neither tag nor rebind by themselves. *)
Theorem collection_tracks_invocations
    (checks : list (value * M value)) (s0 s1 : state) (self : report.t)
    (c : value) :
  Forall (λ pf, quiet pf.2) checks →
  report.__init__ s0 = (s1, Return self) →
  report.__enter__ self s1 = (s1, Return c) →
  (∀ k, contents (after_calls (take k (calls checks)) s1) c
        = Some (take k checks).*1)
  ∧ (∀ k policy func, checks !! k = Some (policy, func) →
       ∃ s', checker policy func (after_calls (take k (calls checks)) s1) = func s' ∧
             contents s' c = Some ((take k checks).*1 ++ [policy])).
Proof.
  intros Hq Hinit Henter. rewrite init_eq in Hinit. injection Hinit as <- <-.
  injection Henter as <-. simpl.
  assert (∀ k, check_ctx (after_calls (take k (calls checks))
                 (State (heap s0 ++ [[]]) (Some (length (heap s0)))
                    (tokens s0 ++ [false]))) = Some (length (heap s0)) ∧
               heap (after_calls (take k (calls checks))
                 (State (heap s0 ++ [[]]) (Some (length (heap s0)))
                    (tokens s0 ++ [false]))) !! length (heap s0)
               = Some (take k checks).*1) as Hk.
  { intros k. unfold calls. rewrite <- fmap_take.
    apply (after_calls_tagged (take k checks) _ _ []).
    - by apply Forall_take.
    - done.
    - simpl. by rewrite lookup_app_r, Nat.sub_diag. }
  split; [intros k; apply Hk|].
  intros k policy func Hlook. destruct (Hk k) as [Hc Hh].
  eexists. split; [by apply checker_active|].
  unfold tagged. cbn [contents heap]. by rewrite list_lookup_alter_eq, Hh.
Qed.

Lemma collection_tracks_invocations_witness :
  contents
    (after_calls (take 3 (calls Evaluation.checks)) (State [[]] (Some 0) [false]))
    (VList 0)
  = Some [VStr "policy_1"; VStr "policy_2"; VStr "policy_3"].
Proof.
  refine (proj1 (collection_tracks_invocations Evaluation.checks empty_state
                   (State [[]] (Some 0) [false])
                   {| report._token :=
                        {| ContextVar.tok_id := 0; ContextVar.old_value := None |} |}
                   (VList 0) _ eq_refl eq_refl) 3).
  example_quiet.
Defined.

Lemma length_outcomes {A} (ms : list (M A)) s :
  length (outcomes ms s) = length ms.
Proof. revert s. induction ms as [|m ms IH]; intros s; [done|]. simpl. by rewrite IH. Qed.

Lemma existsb_truthy_bools s (bs : list bool) :
  existsb (truthy s) (VBool <$> bs) = foldr orb false bs.
Proof.
  induction bs as [|b bs IH]; [done|].
  rewrite fmap_cons. cbn [existsb foldr truthy]. by rewrite IH.
Qed.

Lemma apply_rules_state self s :
  (ReportBase.apply_rules self s).1
  = (mapM (invoke self) (ReportBase.check_methods self) s).1.
Proof.
  change (ReportBase.apply_rules self s)
    with ((mapM (invoke self) (ReportBase.check_methods self) ≫= any) s).
  destruct (mapM (invoke self) (ReportBase.check_methods self) s)
    as [s' [vs|e]] eqn:Hrun.
  - by erewrite bind_Return.
  - by erewrite bind_Raise.
Qed.

(** C5. When none of its check methods raises, [apply_rules] invokes every
    one of them, each once and whatever the earlier results, and returns the
    disjunction of the results.  The methods are the attributes of the
    instance or of a class it inherits from whose name starts with
    [_check_], each name once. *)
Theorem apply_rules_invokes_all (self : object) (s : state) (vs : list value) :
  outcomes (invoke self <$> ReportBase.check_methods self) s = Return <$> vs →
  let s' := after_calls (invoke self <$> ReportBase.check_methods self) s in
  ReportBase.apply_rules self s = (s', Return (VBool (existsb (truthy s') vs)))
  ∧ length vs = length (ReportBase.check_methods self)
  ∧ (∀ bs, vs = VBool <$> bs → existsb (truthy s') vs = foldr orb false bs)
  ∧ NoDup (ReportBase.check_methods self)
  ∧ (∀ name, name ∈ ReportBase.check_methods self ↔
       startswith name "_check_" = true ∧
       ∃ d, d ∈ __dict__ self :: __mro__ self ∧ is_Some (d !! name)).
Proof.
  intros Hout s'. split_and!.
  - unfold ReportBase.apply_rules.
    erewrite bind_Return; [|apply (mapM_returns (invoke self)); exact Hout].
    reflexivity.
  - apply (f_equal length) in Hout.
    by rewrite length_outcomes, !length_fmap in Hout.
  - intros bs ->. apply existsb_truthy_bools.
  - apply check_methods_NoDup.
  - apply elem_of_check_methods.
Qed.

Lemma apply_rules_invokes_all_witness :
  ReportBase.apply_rules Evaluation.lenient (State [[]] (Some 0) [false]) =
    (State [[VStr "policy_1"; VStr "policy_2"; VStr "policy_3"; VStr "policy_4"]]
       (Some 0) [false],
     Return (VBool true)).
Proof.
  destruct (apply_rules_invokes_all Evaluation.lenient (State [[]] (Some 0) [false])
              [VBool false; VBool true; VBool false; VBool true])
    as (Hrun & _).
  - vm_compute. reflexivity.
  - rewrite Hrun. vm_compute. reflexivity.
Defined.

(** C4. When a check method raises, [apply_rules] stops there: it raises
    that very exception, in the state the failing invocation left, so that
    the methods after it in the order of discovery have been neither invoked
    nor recorded; inside a scope the collection has grown by the names of
    the methods before the failing one and its own, and by nothing else. *)
Theorem apply_rules_fails_fast (self : object) (s s2 : state)
    (pre post : list string) (m : string) (vs : list value) (e : exn) :
  ReportBase.check_methods self = pre ++ m :: post →
  outcomes (invoke self <$> pre) s = Return <$> vs →
  invoke self m (after_calls (invoke self <$> pre) s) = (s2, Raise e) →
  ReportBase.apply_rules self s = (s2, Raise e)
  ∧ s2 = after_calls (invoke self <$> (pre ++ [m])) s
  ∧ ∀ checks l xs,
      tagged_as self (pre ++ [m]) checks → Forall (λ pf, quiet pf.2) checks →
      check_ctx s = Some l → heap s !! l = Some xs →
      heap s2 !! l = Some (xs ++ checks.*1).
Proof.
  intros Hnames Hpre Hm.
  assert (s2 = after_calls (invoke self <$> (pre ++ [m])) s) as Hs2.
  { rewrite fmap_app. unfold after_calls. rewrite foldl_app. simpl.
    fold (after_calls (invoke self <$> pre) s). by rewrite Hm. }
  split_and!; [|done|].
  - unfold ReportBase.apply_rules. rewrite Hnames.
    erewrite bind_Raise; [done|].
    by apply (mapM_raises (invoke self) pre m post s vs).
  - intros checks l xs Htag Hq Hl Hxs. rewrite Hs2.
    rewrite (after_calls_tagged_as _ _ _ _ Htag).
    by apply after_calls_tagged.
Qed.

Lemma apply_rules_fails_fast_witness :
  ReportBase.apply_rules Evaluation.evaluatee (State [[]] (Some 0) [false]) =
    (State [[VStr "policy_1"; VStr "policy_2"; VStr "policy_3"]] (Some 0) [false],
     Raise (ValueError "No value")).
Proof.
  refine (proj1 (apply_rules_fails_fast Evaluation.evaluatee
                   (State [[]] (Some 0) [false])
                   (State [[VStr "policy_1"; VStr "policy_2"; VStr "policy_3"]]
                      (Some 0) [false])
                   ["_check_number1"; "_check_number2"] ["_check_number4"]
                   "_check_number3" [VBool false; VBool true]
                   (ValueError "No value") _ _ _)).
  - apply evaluatee_check_methods.
  - vm_compute. reflexivity.
  - vm_compute. reflexivity.
Defined.

(** C8. Leaving a scope restores the binding of the context variable that
    was captured when the scope was made, whether the body returned or
    raised, in the very state in which [__exit__] returns or raises.  A scope
    nested in another one leaves every list that existed before it, the
    collection of the enclosing scope among them, with the elements it had:
    what is tagged inside goes to the inner collection only. *)
Theorem exit_restores_ambient {A : Type} (suite : value → M A) (s : state) :
  (∀ v, well_scoped (suite v)) →
  check_ctx (with_report suite s).1 = check_ctx s
  ∧ (∀ l xs, heap s !! l = Some xs → heap (with_report suite s).1 !! l = Some xs)
  ∧ (∀ self s1 s2 exc,
       report.__init__ s = (s1, Return self) →
       tokens s2 !! ContextVar.tok_id (report._token self) = Some false →
       check_ctx (report.__exit__ self exc s2).1 = check_ctx s ∧
       heap (report.__exit__ self exc s2).1 = heap s2).
Proof.
  intros Hs. destruct (with_report_scoped_run suite Hs s)
    as (s2 & r & _ & _ & Hh & _ & ->). split_and!; [done|exact Hh|].
  intros self s1 s2' exc Hinit Htok. rewrite init_eq in Hinit.
  injection Hinit as <- <-. by rewrite exit_unused.
Qed.

Lemma exit_restores_ambient_witness :
  check_ctx (with_report (λ _, ReportBase.validate Evaluation.evaluatee)
               (State [[VStr "policy_0"]] (Some 0) [false])).1 = Some 0
  ∧ heap (with_report (λ _, ReportBase.validate Evaluation.evaluatee)
            (State [[VStr "policy_0"]] (Some 0) [false])).1 !! 0
    = Some [VStr "policy_0"].
Proof.
  destruct (exit_restores_ambient (λ _, ReportBase.validate Evaluation.evaluatee)
              (State [[VStr "policy_0"]] (Some 0) [false])
              (λ _, evaluatee_scoped)) as (Hctx & Hheap & _).
  split; [exact Hctx|]. apply Hheap. reflexivity.
Defined.




(** * Further properties of the code *)

(** ** Leaving a scope *)

Lemma exit_used self exc s :
  tokens s !! ContextVar.tok_id (report._token self) ≠ Some false →
  report.__exit__ self exc s =
    (s, Raise (RuntimeError "Token has already been used once")).
Proof.
  intros Ht. unfold report.__exit__, mbind, M_bind, ContextVar.get. cbn.
  unfold ContextVar.reset.
  by destruct (tokens s !! ContextVar.tok_id (report._token self)) as [[|]|].
Qed.

Lemma with_report_spent {A} (suite : value → M A) s s2 (r : result A) :
  suite (VList (length (heap s))) (report.__init__ s).1 = (s2, r) →
  tokens s2 !! length (tokens s) ≠ Some false →
  with_report suite s =
    (s2, Raise (RuntimeError "Token has already been used once")).
Proof.
  intros Hsuite Htok. unfold with_report.
  erewrite bind_Return; [|apply init_eq].
  erewrite bind_Return; [|reflexivity].
  rewrite init_eq in Hsuite. simpl in Hsuite.
  erewrite bind_Return; [|unfold try_; cbn; by rewrite Hsuite].
  destruct r as [a|e]; (erewrite bind_Raise; [done|]); by rewrite exit_used.
Qed.

(** X1. A [with report()] statement never completes normally and never lets
    the exception of its body through: whatever the body does, the statement
    ends by raising, either the [RuntimeWarning] of [__exit__] or, when the
    token of the scope has been used meanwhile, the [RuntimeError] of
    [check_ctx.reset]. *)
Theorem with_report_always_raises {A : Type} (suite : value → M A) (s : state) :
  ∃ e, (with_report suite s).2 = Raise e ∧
       ((∃ checks,
           e = RuntimeWarning "Checks failed while applying rules in validation."
                 checks)
        ∨ ∃ msg, e = RuntimeError msg).
Proof.
  destruct (suite (VList (length (heap s))) (report.__init__ s).1)
    as [s2 r] eqn:Hrun.
  destruct (decide (tokens s2 !! length (tokens s) = Some false)) as [Htok|Htok].
  - rewrite (with_report_run suite s s2 r Hrun Htok). eexists. split; [done|].
    left. by eexists.
  - rewrite (with_report_spent suite s s2 r Hrun Htok). eexists. split; [done|].
    right. by eexists.
Qed.

(** X2. A [report] serves once: after [__exit__] has run, whether it returned
    or raised, a second [__exit__] of the same object raises [RuntimeError]
    and changes nothing, so that the binding of the context variable is not
    restored a second time. *)
Theorem exit_twice_raises (self : report.t) (exc exc' : list (option exn))
    (s : state) :
  tokens s !! ContextVar.tok_id (report._token self) = Some false →
  ∃ msg,
    report.__exit__ self exc' (report.__exit__ self exc s).1 =
      ((report.__exit__ self exc s).1, Raise (RuntimeError msg)).
Proof.
  intros Htok. eexists. rewrite (exit_unused self exc s Htok). cbn [fst].
  apply exit_used. cbn [tokens].
  rewrite list_lookup_insert_eq; [done|]. by eapply lookup_lt_Some.
Qed.

Lemma exit_twice_raises_witness :
  ∃ msg,
    report.__exit__
      {| report._token := {| ContextVar.tok_id := 0; ContextVar.old_value := None |} |}
      no_exc
      (report.__exit__
         {| report._token :=
              {| ContextVar.tok_id := 0; ContextVar.old_value := None |} |}
         [] (State [[]] (Some 0) [false])).1
    = (State [[]] None [true], Raise (RuntimeError msg)).
Proof.
  apply (exit_twice_raises
           {| report._token :=
                {| ContextVar.tok_id := 0; ContextVar.old_value := None |} |}
           [] no_exc (State [[]] (Some 0) [false])).
  reflexivity.
Defined.

(** X3. Scopes are not checked to be left in the order they were made.  With
    two [report] objects made one after the other and the first one left
    first, whatever the arguments: the [RuntimeWarning] of the first one, if
    any, carries the collection of the second, and once both are left the
    context variable is bound to the collection of the first, not to what
    was bound before either. *)
Theorem exits_out_of_order (s0 : state) (exc1 exc2 : list (option exn)) :
  ∃ r1 r2 s2 l1 l2,
    (r1 ← report.__init__; r2 ← report.__init__; mret (r1, r2)) s0
      = (s2, Return (r1, r2)) ∧
    l1 = length (heap s0) ∧ l2 = S (length (heap s0)) ∧
    check_ctx s2 = Some l2 ∧
    (report.__exit__ r1 exc1 s2).2 =
      match exc1 with
      | [] => Return (VBool false)
      | _ :: _ =>
          Raise (RuntimeWarning "Checks failed while applying rules in validation."
                   (VList l2))
      end ∧
    check_ctx (report.__exit__ r1 exc1 s2).1 = check_ctx s0 ∧
    check_ctx (report.__exit__ r2 exc2 (report.__exit__ r1 exc1 s2).1).1 = Some l1.
Proof.
  eexists _, _, _, _, _. split.
  { erewrite bind_Return; [|apply init_eq].
    erewrite bind_Return; [|apply init_eq]. reflexivity. }
  split_and!; [done|done|cbn..].
  - by rewrite length_app, Nat.add_1_r.
  - rewrite exit_unused.
    + cbn [snd ambient check_ctx]. by rewrite length_app, Nat.add_1_r.
    + cbn. rewrite lookup_app_l; [|rewrite length_app; simpl; lia].
      by rewrite lookup_app_r, Nat.sub_diag.
  - rewrite exit_unused; [done|].
    cbn. rewrite lookup_app_l; [|rewrite length_app; simpl; lia].
    by rewrite lookup_app_r, Nat.sub_diag.
  - rewrite (exit_unused _ exc1).
    + rewrite exit_unused; [done|]. cbn.
      rewrite list_lookup_insert_ne; [|rewrite length_app; simpl; lia].
      by rewrite lookup_app_r, Nat.sub_diag.
    + cbn. rewrite lookup_app_l; [|rewrite length_app; simpl; lia].
      by rewrite lookup_app_r, Nat.sub_diag.
Qed.

(** ** [report] used as a decorator *)

Section decorated.
Context (self : report.t) (func : M value).



End decorated.



(** ** [apply_rules] at the edges *)

Lemma validate_run self s :
  ReportBase.validate self s =
    match ReportBase.apply_rules self s with
    | (s', Return _) => (s', Return VNone)
    | (s', Raise e) => (s', Raise e)
    end.
Proof.
  unfold ReportBase.validate.
  destruct (ReportBase.apply_rules self s) as [s' [v|e]] eqn:Hrun.
  - by erewrite bind_Return.
  - by erewrite bind_Raise.
Qed.

Lemma validate_state self s :
  (ReportBase.validate self s).1 = (ReportBase.apply_rules self s).1.
Proof.
  rewrite validate_run. by destruct (ReportBase.apply_rules self s) as [s' [v|e]].
Qed.



(** X5. On an object none of whose attribute names starts with [_check_],
    [apply_rules] invokes nothing, leaves the state as it is and returns
    [False] ([any] of the empty list); [validate] returns [None]. *)
Theorem apply_rules_without_checks (self : object) (s : state) :
  (∀ name, name ∈ dir self → startswith name "_check_" = false) →
  ReportBase.apply_rules self s = (s, Return (VBool false)) ∧
  ReportBase.validate self s = (s, Return VNone).
Proof.
  intros Hnone.
  assert (ReportBase.check_methods self = []) as Hnil.
  { apply elem_of_nil_inv. intros name [Hpre Hin]%list_elem_of_filter.
    apply Hnone in Hin. apply Is_true_true in Hpre. congruence. }
  assert (ReportBase.apply_rules self s = (s, Return (VBool false))) as Hrun.
  { unfold ReportBase.apply_rules. by rewrite Hnil. }
  split; [done|]. by rewrite validate_run, Hrun.
Qed.

Lemma apply_rules_without_checks_witness :
  ReportBase.apply_rules
    {| __dict__ := ∅;
       __mro__ := [ReportBase.cls {| __dict__ := ∅; __mro__ := [] |}] |}
    (State [[]] (Some 0) [false])
  = (State [[]] (Some 0) [false], Return (VBool false)).
Proof.
  refine (proj1 (apply_rules_without_checks _ _ _)).
  assert (dir {| __dict__ := ∅;
                 __mro__ := [ReportBase.cls {| __dict__ := ∅; __mro__ := [] |}] |}
          = ["__doc__"; "apply_rules"; "validate"]) as ->
    by (vm_compute; reflexivity).
  intros name Hin. set_unfold. by destruct Hin as [->|[->|[->|[]]]].
Defined.

(** X6. An attribute whose name starts with [_check_] and that is not
    callable makes [apply_rules] raise [TypeError] when its turn comes: the
    check methods before it in name order have been invoked, those after it
    are not. *)
Theorem apply_rules_data_attribute (self : object) (s : state)
    (pre post : list string) (m : string) (vs : list value) (v : value) :
  ReportBase.check_methods self = pre ++ m :: post →
  outcomes (invoke self <$> pre) s = Return <$> vs →
  lookup_mro m (__dict__ self :: __mro__ self) = Some (Data v) →
  ∃ msg,
    ReportBase.apply_rules self s =
      (after_calls (invoke self <$> pre) s, Raise (TypeError msg)).
Proof.
  intros Hnames Hpre Hm. eexists. unfold ReportBase.apply_rules. rewrite Hnames.
  erewrite bind_Raise; [done|].
  apply (mapM_raises (invoke self) pre m post s vs); [done|].
  unfold invoke, getattr. rewrite Hm.
  erewrite bind_Return; [|reflexivity]. reflexivity.
Qed.

Lemma apply_rules_data_attribute_witness :
  ∃ msg,
    ReportBase.apply_rules
      (setattr Evaluation.evaluatee "_check_number2" (Data (VBool true)))
      (State [[]] (Some 0) [false])
    = (State [[VStr "policy_1"]] (Some 0) [false], Raise (TypeError msg)).
Proof.
  destruct (apply_rules_data_attribute
              (setattr Evaluation.evaluatee "_check_number2" (Data (VBool true)))
              (State [[]] (Some 0) [false])
              ["_check_number1"] ["_check_number3"; "_check_number4"]
              "_check_number2" [VBool false] (VBool true))
    as [msg Hrun]; [vm_compute; reflexivity..|].
  exists msg. rewrite Hrun. reflexivity.
Defined.

(** ** Attributes that are not checks *)





(** ** What a scope around [validate] reports *)

Lemma tagged_as_scoped self names checks :
  tagged_as self names checks → Forall (λ pf, stateless pf.2) checks →
  Forall (λ m, well_scoped (invoke self m)) names.
Proof.
  induction 1 as [|m [p f] names checks Hm _ IH]; intros Hq; [done|].
  apply Forall_cons in Hq as [Hf Hq]. apply Forall_cons_2; [|by apply IH].
  eapply well_scoped_ext; [intros s; symmetry; apply Hm|].
  by apply well_scoped_checker, stateless_well_scoped.
Qed.

(** X8. Inside a scope, when every check method of an object is a decorated
    body and none of them raises, [apply_rules] leaves in the collection the
    policy names of all of them, once each, in the order of the method
    names, after what the collection held before. *)
Theorem apply_rules_records_all (self : object)
    (checks : list (value * M value)) (s : state) (l : loc)
    (xs vs : list value) :
  tagged_as self (ReportBase.check_methods self) checks →
  Forall (λ pf, quiet pf.2) checks →
  check_ctx s = Some l → heap s !! l = Some xs →
  outcomes (invoke self <$> ReportBase.check_methods self) s = Return <$> vs →
  heap (ReportBase.apply_rules self s).1 !! l = Some (xs ++ checks.*1) ∧
  length checks = length (ReportBase.check_methods self).
Proof.
  intros Htag Hq Hl Hxs Hout. split; [|symmetry; by eapply Forall2_length].
  rewrite apply_rules_state, (mapM_returns (invoke self) _ s vs Hout). cbn [fst].
  rewrite (after_calls_tagged_as _ _ _ _ Htag). by apply after_calls_tagged.
Qed.

Lemma apply_rules_records_all_witness :
  heap (ReportBase.apply_rules Evaluation.lenient
          (State [[VStr "policy_0"]] (Some 0) [false])).1 !! 0
  = Some ([VStr "policy_0"] ++
          [VStr "policy_1"; VStr "policy_2"; VStr "policy_3"; VStr "policy_4"]).
Proof.
  refine (proj1 (apply_rules_records_all Evaluation.lenient
            [ (VStr "policy_1", Evaluation._check_number1);
              (VStr "policy_2", Evaluation._check_number2);
              (VStr "policy_3", mret (VBool false));
              (VStr "policy_4", Evaluation._check_number4) ]
            (State [[VStr "policy_0"]] (Some 0) [false]) 0 [VStr "policy_0"]
            [VBool false; VBool true; VBool false; VBool true] _ _ eq_refl eq_refl _)).
  - assert (ReportBase.check_methods Evaluation.lenient =
            ["_check_number1"; "_check_number2"; "_check_number3"; "_check_number4"])
      as -> by (vm_compute; reflexivity).
    repeat (apply Forall2_cons_2; [intros s; by apply invoke_function|]).
    apply Forall2_nil_2.
  - repeat (apply Forall_cons_2; [apply stateless_quiet; by intros ?|]).
    apply Forall_nil_2.
  - vm_compute. reflexivity.
Defined.

(** X9. [with report(): self.validate()], opened in any state, inside
    another scope or not, for an object whose check methods are decorated
    bodies that write nothing: the statement raises the [RuntimeWarning]
    over a list that did not exist before, and that list holds the policy
    names of the methods invoked, a prefix of all of them in the order of
    the method names, and nothing else; the binding of the context variable
    is the one from before the statement. *)
Theorem validated_scope_payload (self : object)
    (checks : list (value * M value)) (s : state) :
  tagged_as self (ReportBase.check_methods self) checks →
  Forall (λ pf, stateless pf.2) checks →
  ∃ n s',
    with_report (λ _, ReportBase.validate self) s =
      (s', Raise (RuntimeWarning "Checks failed while applying rules in validation."
                    (VList (length (heap s))))) ∧
    heap s !! length (heap s) = None ∧
    heap s' !! length (heap s) = Some (take n checks.*1) ∧
    check_ctx s' = check_ctx s.
Proof.
  intros Htag Hst.
  assert (∀ v : value, well_scoped ((λ _, ReportBase.validate self) v)) as Hs.
  { intros _. apply well_scoped_validate. by eapply tagged_as_scoped. }
  destruct (with_report_scoped_run _ Hs s) as (s2 & r & Hrun & _ & _ & _ & ->).
  assert (s2 = (ReportBase.validate self (report.__init__ s).1).1) as Hs2
    by (by rewrite Hrun).
  rewrite validate_state, apply_rules_state in Hs2.
  destruct (mapM_prefix (invoke self) (ReportBase.check_methods self)
              (report.__init__ s).1) as [n Hn].
  rewrite Hn in Hs2. exists n. eexists. split_and!; [done| |cbn [heap]|done].
  - by apply lookup_ge_None_2.
  - rewrite Hs2, (after_calls_tagged_as self _ (take n checks)), <- fmap_take.
    + apply (after_calls_tagged (take n checks) _ _ []).
      * apply Forall_take. eapply Forall_impl; [exact Hst|].
        intros pf. apply stateless_quiet.
      * done.
      * rewrite init_eq. cbn. by rewrite lookup_app_r, Nat.sub_diag.
    + by apply Forall2_take.
Qed.

Lemma validated_scope_payload_witness :
  ∃ n s',
    with_report (λ _, ReportBase.validate Evaluation.evaluatee)
      (State [[VStr "policy_0"]] (Some 0) [false]) =
      (s', Raise (RuntimeWarning "Checks failed while applying rules in validation."
                    (VList (length (heap (State [[VStr "policy_0"]] (Some 0) [false])))))) ∧
    heap (State [[VStr "policy_0"]] (Some 0) [false])
      !! length (heap (State [[VStr "policy_0"]] (Some 0) [false])) = None ∧
    heap s' !! length (heap (State [[VStr "policy_0"]] (Some 0) [false]))
      = Some (take n Evaluation.checks.*1) ∧
    check_ctx s' = check_ctx (State [[VStr "policy_0"]] (Some 0) [false]).
Proof.
  apply (validated_scope_payload Evaluation.evaluatee Evaluation.checks).
  - rewrite evaluatee_check_methods. unfold Evaluation.checks.
    repeat (apply Forall2_cons_2; [intros s; by apply invoke_function|]).
    apply Forall2_nil_2.
  - unfold Evaluation.checks.
    repeat (apply Forall_cons_2; [by intros ?|]). apply Forall_nil_2.
Defined.
